(** * Secure error handling in a Flask backend

    A shallow embedding of [backend/server.py]: the view function
    [trigger_error], the fallback handler [handle_secure_500], the logging
    set-up of lines 14-23, the start of the process on lines 80-83, and as
    much of the framework contract (request JSON access, [jsonify],
    exception dispatch, response decoration, the development server) as
    they rely on.  Handlers are state-passing functions over a [World]
    holding the console streams, the log file and the exception being
    handled; a Python exception is the [Raise] outcome.  What the console
    can encode and what the development server writes are parameters. *)

From Stdlib Require Import ZArith List String Ascii Bool DecimalString Lia.
From Corelib Require Import Floats.SpecFloat.
Import ListNotations.
Open Scope string_scope.

Set Warnings "-register-all".

(** ** Python values *)

(** The objects [json.loads] can produce.  A dict is kept as its items, one
    per key.  A str is kept as the bytes of its UTF-8 form, a lone surrogate
    (which JSON text can spell with a \u escape) as the three bytes 0xED,
    0xA0..0xBF, 0x80..0xBF that stand for it in generalised UTF-8. *)
Inductive value : Type :=
| PyNone
| PyBool (b : bool)
| PyInt (z : Z)
| PyFloat (f : spec_float)
| PyStr (s : string)
| PyList (items : list value)
| PyDict (items : list (string * value)).

(** [bool(v)]: the test of a conditional expression. *)
Definition truthy (v : value) : bool :=
  match v with
  | PyNone => false
  | PyBool b => b
  | PyInt z => negb (z =? 0)%Z
  | PyFloat (S754_zero _) => false
  | PyFloat _ => true
  | PyStr EmptyString => false
  | PyStr _ => true
  | PyList [] => false
  | PyList _ => true
  | PyDict [] => false
  | PyDict _ => true
  end.

(** [type(v).__name__], as it appears in an AttributeError message. *)
Definition type_name (v : value) : string :=
  match v with
  | PyNone => "NoneType"
  | PyBool _ => "bool"
  | PyInt _ => "int"
  | PyFloat _ => "float"
  | PyStr _ => "str"
  | PyList _ => "list"
  | PyDict _ => "dict"
  end.

Definition is_dict (v : value) : bool :=
  match v with PyDict _ => true | _ => false end.

(** Item lookup of a dict. *)
Fixpoint dict_lookup (key : string) (items : list (string * value)) : option value :=
  match items with
  | [] => None
  | (k, v) :: rest => if String.eqb k key then Some v else dict_lookup key rest
  end.

(** ** Exceptions and outcomes *)

Inductive ExcClass : Type :=
| ZeroDivisionError
| AttributeError
| RecursionError
| UnicodeEncodeError
| BadRequest
| UnsupportedMediaType
| InternalServerError.

Definition class_name (c : ExcClass) : string :=
  match c with
  | ZeroDivisionError => "ZeroDivisionError"
  | AttributeError => "AttributeError"
  | RecursionError => "RecursionError"
  | UnicodeEncodeError => "UnicodeEncodeError"
  | BadRequest => "BadRequest"
  | UnsupportedMediaType => "UnsupportedMediaType"
  | InternalServerError => "InternalServerError"
  end.

(** One entry of a traceback.  Only the frames of [server.py] are kept. *)
Record Frame : Type := mkFrame {
  filename : string;
  lineno : Z;
  funcname : string
}.

(** An exception object: its class, [str(e)] and its traceback. *)
Record Exn : Type := mkExn {
  exc_class : ExcClass;
  exc_str : string;
  traceback : list Frame
}.

Inductive Outcome (A : Type) : Type :=
| Return (a : A)
| Raise (e : Exn).
Arguments Return {A} a.
Arguments Raise {A} e.

(** ** The world a handler runs in *)

(** A printed line: the literal parts and the interpolated objects of an
    f-string, in order. *)
Inductive Piece : Type :=
| Lit (s : string)
| Val (v : value).

Record LogRecord : Type := mkLogRecord {
  levelno : Z;
  message : string;
  exc : option Exn;
  created : Z
}.

Inductive ErrItem : Type :=
| ErrPrint (line : list Piece)
| ErrLog (r : LogRecord).

Record World : Type := mkWorld {
  clock : Z;                        (* the wall clock behind asctime *)
  exc_info : option Exn;            (* sys.exc_info(): the exception being handled *)
  stdout : list (list Piece);
  stderr : list ErrItem;
  app_errors_log : list LogRecord   (* the file app_errors.log, opened for append *)
}.

Definition M (A : Type) : Type := World -> Outcome A * World.

Definition ret {A} (a : A) : M A := fun w => (Return a, w).

Definition raise {A} (e : Exn) : M A := fun w => (Raise e, w).

Definition bind {A B} (m : M A) (k : A -> M B) : M B :=
  fun w =>
    match m w with
    | (Return a, w1) => k a w1
    | (Raise e, w1) => (Raise e, w1)
    end.

Declare Scope py_scope.
Delimit Scope py_scope with py.
Notation "x <- m ;; k" := (bind m (fun x => k))
  (at level 100, m at next level, right associativity) : py_scope.
Notation "m ;; k" := (bind m (fun _ => k))
  (at level 100, right associativity) : py_scope.
Open Scope py_scope.

Definition set_exc_info (e : option Exn) (w : World) : World :=
  mkWorld (clock w) e (stdout w) (stderr w) (app_errors_log w).

(** [try: body / except Exception as e: handler e].  Every class of
    [ExcClass] derives from Exception.  While the handler runs the caught
    exception is the one [sys.exc_info()] reports; the previous one is back
    when the block is left. *)
Definition try_except {A} (body : M A) (handler : Exn -> M A) : M A :=
  fun w =>
    match body w with
    | (Return a, w1) => (Return a, w1)
    | (Raise e, w1) =>
        let saved := exc_info w1 in
        let (r, w2) := handler e (set_exc_info (Some e) w1) in
        (r, set_exc_info saved w2)
    end.

(** [print(literal, file=sys.stderr)]: the literals of the source are ASCII,
    which the stream can always encode. *)
Definition print_stderr (line : list Piece) : M unit :=
  fun w => (Return tt,
            mkWorld (clock w) (exc_info w) (stdout w) (stderr w ++ [ErrPrint line]) (app_errors_log w)).

(** The file every statement of the source lives in. *)
Definition server_py : string := "server.py".

(** An exception raised by a statement of function [fn] at line [line]. *)
Definition raise_at {A} (line : Z) (fn : string) (c : ExcClass) (msg : string) : M A :=
  raise (mkExn c msg [mkFrame server_py line fn]).

(** ** Logging, lines 14-23 *)

Definition ERROR : Z := 40.
Definition INFO : Z := 20.
Definition NOTSET : Z := 0.

(** [logging.basicConfig(level=logging.ERROR, filename='app_errors.log',
    filemode='a')]: the root logger filters at ERROR, its file handler takes
    every record it is handed. *)
Definition root_level : Z := ERROR.
Definition file_handler_level : Z := NOTSET.
(** [handler.setLevel(logging.ERROR)] on the stderr stream handler. *)
Definition stream_handler_level : Z := ERROR.

(** [app.logger.log(level, msg, exc_info=with_exc)]: the logger has no level
    of its own, so the root level decides; the record goes to the stderr
    handler added on line 23 and, by propagation, to the file handler of the
    root logger. *)
Definition logger_log (level : Z) (msg : string) (with_exc : bool) : M unit :=
  fun w =>
    if (level <? root_level)%Z then (Return tt, w)
    else
      let r := mkLogRecord level msg (if with_exc then exc_info w else None) (clock w) in
      (Return tt,
       mkWorld (clock w) (exc_info w) (stdout w)
         (if (stream_handler_level <=? level)%Z then stderr w ++ [ErrLog r] else stderr w)
         (if (file_handler_level <=? level)%Z then app_errors_log w ++ [r] else app_errors_log w)).

Definition logger_error (msg : string) (with_exc : bool) : M unit :=
  logger_log ERROR msg with_exc.

(** A record of the development server's own logger, which has the level
    INFO: its records pass to the handlers of the root logger, that is to
    the file, and not to the stderr handler, which sits on the logger of the
    application. *)
Definition werkzeug_info (msg : string) (w : World) : World :=
  mkWorld (clock w) (exc_info w) (stdout w) (stderr w)
    (if (file_handler_level <=? INFO)%Z
     then app_errors_log w ++ [mkLogRecord INFO msg None (clock w)]
     else app_errors_log w).

(** ** Text *)

(** The double quote character, and the backslash. *)
Definition dquote : string := String (ascii_of_nat 34) EmptyString.
Definition backslash : string := String (ascii_of_nat 92) EmptyString.

(** [needle in hay] on strings. *)
Fixpoint contains (needle hay : string) : bool :=
  if String.prefix needle hay then true
  else match hay with
       | EmptyString => false
       | String _ rest => contains needle rest
       end.

Definition hex_digit (n : nat) : string :=
  String (nth n (list_ascii_of_string "0123456789abcdef") "0"%char) EmptyString.

(** How [json.dumps] writes one character of a string (ensure_ascii): the
    quote and the backslash are escaped, the usual control characters have
    their short forms, every other character outside space..tilde becomes a
    \u escape.  The texts the handlers pass are ASCII. *)
Definition escape_char (c : ascii) : string :=
  let n := nat_of_ascii c in
  if (n =? 34)%nat then backslash ++ dquote
  else if (n =? 92)%nat then backslash ++ backslash
  else if (n =? 10)%nat then backslash ++ "n"
  else if (n =? 13)%nat then backslash ++ "r"
  else if (n =? 9)%nat then backslash ++ "t"
  else if (n =? 8)%nat then backslash ++ "b"
  else if (n =? 12)%nat then backslash ++ "f"
  else if ((32 <=? n) && (n <=? 126))%nat then String c EmptyString
  else backslash ++ "u00" ++ hex_digit (n / 16) ++ hex_digit (n mod 16).

Fixpoint escape (s : string) : string :=
  match s with
  | EmptyString => EmptyString
  | String c rest => escape_char c ++ escape rest
  end.

Definition dumps_str (s : string) : string := dquote ++ escape s ++ dquote.

(** [json.dumps] of a dict of strings with the compact separators that
    [jsonify] uses when the application is not in debug mode. *)
Fixpoint dumps_items (items : list (string * string)) : string :=
  match items with
  | [] => EmptyString
  | [(k, v)] => dumps_str k ++ ":" ++ dumps_str v
  | (k, v) :: rest => dumps_str k ++ ":" ++ dumps_str v ++ "," ++ dumps_items rest
  end.

Definition dumps (d : list (string * string)) : string :=
  "{" ++ dumps_items d ++ "}".

Definition newline : string := String (ascii_of_nat 10) EmptyString.

Definition decimal (z : Z) : string := NilZero.string_of_int (Z.to_int z).

(** ** Requests and responses *)

Definition Headers : Type := list (string * string).

(** What the framework makes of a request body. *)
Inductive Body : Type :=
| NotJson (raw : string)     (* no body, or a content type that is not JSON *)
| Malformed (raw : string)   (* JSON content type, but json.loads raises ValueError *)
| TooDeep (raw note : string)
    (* JSON content type, nested deeper than the decoder can follow, valid or
       not: json.loads raises RecursionError; [note] is what its text says
       after the words maximum recursion depth exceeded *)
| Json (v : value).          (* JSON content type, the parsed document *)

(** A POST request routed to /api/error/trigger. *)
Record Request : Type := mkRequest {
  req_headers : Headers;
  body : Body
}.

Record Response : Type := mkResponse {
  status_code : Z;
  headers : Headers;
  data : string
}.

(** The RecursionError of the JSON decoder, met at line [line] of [fn]. *)
Definition too_deep (line : Z) (fn note : string) : Exn :=
  mkExn RecursionError ("maximum recursion depth exceeded" ++ note)
        [mkFrame server_py line fn].

(** [request.get_json(silent=...)] called at line [line] of [fn].  Not
    silent, a body that is not JSON aborts the request; silent, None is
    returned instead.  Silence covers the ValueError of the decoder only: its
    RecursionError passes through. *)
Definition get_json (line : Z) (fn : string) (silent : bool) (request : Request)
    : M value :=
  match body request with
  | Json v => ret v
  | Malformed _ =>
      if silent then ret PyNone
      else raise_at line fn BadRequest "400 Bad Request: Failed to decode JSON object"
  | TooDeep _ note => raise (too_deep line fn note)
  | NotJson _ =>
      if silent then ret PyNone
      else raise_at line fn UnsupportedMediaType "415 Unsupported Media Type"
  end.

(** [jsonify(d)]: status 200, the JSON content type, the length of the body,
    the compact text of the document and a final newline. *)
Definition jsonify (d : list (string * string)) : Response :=
  let text := dumps d ++ newline in
  mkResponse 200
    [("Content-Type", "application/json");
     ("Content-Length", decimal (Z.of_nat (String.length text)))]
    text.

(** Returning [(response, status)] from a view sets the status. *)
Definition with_status (resp : Response) (status : Z) : Response :=
  mkResponse status (headers resp) (data resp).

(** [response.headers.add(name, v)] appends a header line. *)
Definition headers_add (name v : string) (resp : Response) : Response :=
  mkResponse (status_code resp) (headers resp ++ [(name, v)])%list (data resp).

(** ** Operations of the view *)

(** [data.get(key, default)] evaluated at line [line] of [fn]: a dict
    answers, any other object has no attribute [get]. *)
Definition py_get (line : Z) (fn : string) (data : value) (key : string)
    (default : value) : M value :=
  match data with
  | PyDict items =>
      ret (match dict_lookup key items with Some v => v | None => default end)
  | other =>
      raise_at line fn AttributeError
        ("'" ++ type_name other ++ "' object has no attribute 'get'")
  end.

Definition float_of_int (z : Z) : spec_float :=
  binary_normalize 53 1024 z 0 false.

(** [a / b] on ints at line [line] of [fn].  The quotient is the rounded
    quotient of the operands as doubles, which is Python's result for
    operands below 2^53. *)
Definition truediv (line : Z) (fn : string) (a b : Z) : M spec_float :=
  if (b =? 0)%Z then raise_at line fn ZeroDivisionError "division by zero"
  else ret (SFdiv 53 1024 (float_of_int a) (float_of_int b)).

Definition success_message : string :=
  "This should not be reached if an error occurs.".
Definition local_message : string :=
  "An internal server error occurred. Please try again later.".
Definition global_message : string :=
  "An unexpected internal server error occurred. Please contact support if the issue persists.".

(** Lines 35-36: the value bound to [simulated_input]. *)
Definition read_simulated_input (request : Request) : M value :=
  data <- get_json 35 "trigger_error" true request ;;
  if truthy data
  then py_get 36 "trigger_error" data "simulatedInput" (PyStr "null")
  else ret (PyStr "null").

(** Lines 61-76.  The handler has no statement that can raise. *)
Definition handle_secure_500 (e : Exn) (w : World) : Response * World :=
  let w1 := snd (logger_error
                   ("An unhandled internal server error occurred: " ++ exc_str e) true w) in
  let w2 := snd (print_stderr
                   [Lit "--- SECURE: UNHANDLED 500 ERROR CAUGHT. STACK TRACE LOGGED INTERNALLY, NOT EXPOSED TO CLIENT ---"] w1) in
  let response := jsonify [("message", global_message)] in
  let response := with_status response 500 in
  let response := headers_add "Access-Control-Allow-Origin" "*" response in
  let response := headers_add "Access-Control-Allow-Headers" "Content-Type" response in
  (response, w2).

(** ** The surroundings of the process *)

Fixpoint is_ascii_text (s : string) : bool :=
  match s with
  | EmptyString => true
  | String c rest => (nat_of_ascii c <? 128)%nat && is_ascii_text rest
  end.

(** The text stream behind [sys.stdout], with the strict error handler that
    is its default: which objects it can write when they are interpolated
    in a printed line, and what the UnicodeEncodeError says, after its
    opening quote, when it cannot.  Every encoding a console has writes
    ASCII text. *)
Record Console : Type := mkConsole {
  takes : value -> bool;
  complaint : value -> string;
  takes_ascii : forall s : string, is_ascii_text s = true -> takes (PyStr s) = true
}.

(** The development server behind [app.run]: the lines it prints on stdout
    when it starts, the messages of the records its logger writes at INFO
    when it starts, and the message of the record it writes for each request
    it has served. *)
Record DevServer : Type := mkDevServer {
  banner : list string;
  startup_messages : list string;
  access_message : Request -> Response -> string
}.

(** What a cross-origin extension adds, given the request headers and the
    headers the response has so far. *)
Definition CorsPolicy : Type := Headers -> Headers -> Headers.

(** The exception the framework hands to a handler registered for 500 when
    some other exception left the view. *)
Definition internal_server_error : Exn :=
  mkExn InternalServerError
    "500 Internal Server Error: The server encountered an internal error and was unable to complete your request. Either the server is overloaded or there is an error in the application."
    [].

(** An exception left the view and no handler is registered for its class.
    Debug is off (line 83), so it is not propagated: the framework logs it,
    and the handler registered for 500 (line 60) makes the response. *)
Definition handle_exception (e : Exn) (w : World) : Response * World :=
  let w1 := snd (logger_error "Exception on /api/error/trigger [POST]" true w) in
  handle_secure_500 internal_server_error w1.

(** ** What the client sees and what the log holds *)

Definition local_body : string := dumps [("message", local_message)] ++ newline.
Definition global_body : string := dumps [("message", global_message)] ++ newline.
Definition success_body : string := dumps [("message", success_message)] ++ newline.

Definition local_response : Response :=
  with_status (jsonify [("message", local_message)]) 500.
Definition success_response : Response :=
  with_status (jsonify [("message", success_message)]) 200.

(** The response lines 68-74 build. *)
Definition global_response : Response :=
  headers_add "Access-Control-Allow-Headers" "Content-Type"
    (headers_add "Access-Control-Allow-Origin" "*"
       (with_status (jsonify [("message", global_message)]) 500)).

(** Status and body, the part of a response the claims compare. *)
Definition visible (resp : Response) : Z * string := (status_code resp, data resp).

(** The exception of line 43 and the exception of line 36 on object [v]. *)
Definition zero_division : Exn :=
  mkExn ZeroDivisionError "division by zero" [mkFrame server_py 43 "trigger_error"].
Definition no_get (v : value) : Exn :=
  mkExn AttributeError ("'" ++ type_name v ++ "' object has no attribute 'get'")
        [mkFrame server_py 36 "trigger_error"].

(** The record the except block of [trigger_error] writes. *)
Definition local_record (w : World) : LogRecord :=
  mkLogRecord ERROR "An error occurred during processing: division by zero"
              (Some zero_division) (clock w).

(** The two records that are written when exception [e] leaves the view: the
    one of the framework and the one of line 63. *)
Definition unhandled_records (e : Exn) (w : World) : list LogRecord :=
  [mkLogRecord ERROR "Exception on /api/error/trigger [POST]" (Some e) (clock w);
   mkLogRecord ERROR ("An unhandled internal server error occurred: "
                        ++ exc_str internal_server_error)
               (Some e) (clock w)].

(** The lines the view prints. *)
Definition received_line : list Piece :=
  [Lit "--- RECEIVED REQUEST TO TRIGGER ERROR ---"].
Definition input_line (v : value) : list Piece :=
  [Lit ("Input received from client: " ++ dquote); Val v; Lit dquote].
Definition demo_line : list Piece :=
  [Lit "--- DEMO: Triggering Handled Exception for Secure Error Handling ---"].
Definition secure_line : list Piece :=
  [Lit "--- SECURE: FULL STACK TRACE LOGGED INTERNALLY, NOT EXPOSED TO CLIENT ---"].
(** The line the fallback handler prints on stderr. *)
Definition unhandled_line : list Piece :=
  [Lit "--- SECURE: UNHANDLED 500 ERROR CAUGHT. STACK TRACE LOGGED INTERNALLY, NOT EXPOSED TO CLIENT ---"].

(** The log records among what was written to stderr. *)
Fixpoint stderr_records (items : list ErrItem) : list LogRecord :=
  match items with
  | [] => []
  | ErrLog r :: rest => r :: stderr_records rest
  | ErrPrint _ :: rest => stderr_records rest
  end.

Definition is_error_record (rec : LogRecord) : bool := (ERROR <=? levelno rec)%Z.

Definition set_clock (t : Z) (w : World) : World :=
  mkWorld t (exc_info w) (stdout w) (stderr w) (app_errors_log w).

(** What lines 35-36 come to for a body: the value bound, or the exception
    raised. *)
Definition input_of (b : Body) : Outcome value :=
  match b with
  | Json v =>
      if truthy v
      then match v with
           | PyDict items =>
               Return (match dict_lookup "simulatedInput" items with
                       | Some x => x
                       | None => PyStr "null"
                       end)
           | other => Raise (no_get other)
           end
      else Return (PyStr "null")
  | TooDeep _ note => Raise (too_deep 35 "trigger_error" note)
  | _ => Return (PyStr "null")
  end.

(** No value for simulatedInput arrives: the body is absent or rejected by
    the decoder as not valid JSON, or it parses to an object without that
    field, or to a falsy document. *)
Definition no_simulated_input (b : Body) : bool :=
  match b with
  | Json (PyDict items) =>
      match dict_lookup "simulatedInput" items with Some _ => false | None => true end
  | Json v => negb (truthy v)
  | TooDeep _ _ => false
  | _ => true
  end.

(** ** What may not reach the client *)

Definition is_digit (c : ascii) : bool :=
  let n := nat_of_ascii c in ((48 <=? n) && (n <=? 57))%nat.

Fixpoint has_char (p : ascii -> bool) (s : string) : bool :=
  match s with
  | EmptyString => false
  | String c rest => p c || has_char p rest
  end.

(** A text with no trace of an exception report: no exception class name, no
    traceback header, no file path (no path separator, no Python file name,
    no File entry), no line number (no digit at all). *)
Definition generic_only (text : string) : bool :=
  negb (contains "ZeroDivision" text) && negb (contains "Traceback" text)
  && negb (contains "Error" text) && negb (contains "Exception" text)
  && negb (contains "File " text) && negb (contains ".py" text)
  && negb (contains "line " text) && negb (contains "/" text)
  && negb (contains backslash text) && negb (has_char is_digit text).

(** The lines [traceback.format_exception] makes of an exception (the
    quoted source lines apart). *)
Definition format_frame (f : Frame) : string :=
  "  File " ++ dquote ++ filename f ++ dquote ++ ", line " ++ decimal (lineno f)
            ++ ", in " ++ funcname f.

Definition format_exception (e : Exn) : list string :=
  ("Traceback (most recent call last):" :: map format_frame (traceback e))
    ++ [class_name (exc_class e) ++ ": " ++ exc_str e].

(** Every piece of detail an exception carries. *)
Definition exn_details (e : Exn) : list string :=
  format_exception e
    ++ [class_name (exc_class e); exc_str e]
    ++ flat_map (fun f => [filename f; decimal (lineno f); funcname f]) (traceback e).

Definition record_details (rec : LogRecord) : list string :=
  message rec :: match exc rec with Some e => exn_details e | None => [] end.

(** Some detail of the log record occurs in the text. *)
Definition leaks (text : string) (rec : LogRecord) : bool :=
  existsb (fun d => contains d text) (record_details rec).

(** ** Sample surroundings for concrete runs *)

(** A console that writes UTF-8.  It refuses exactly the strings that hold a
    surrogate; of a list or a dict it prints the repr of the parts, where
    such characters are escaped. *)
Fixpoint find_surrogate (s : string) (pos : nat) : option (nat * nat * nat) :=
  match s with
  | String c ((String d (String e _)) as rest) =>
      let nc := nat_of_ascii c in
      let nd := nat_of_ascii d in
      if ((nc =? 237) && (160 <=? nd) && (nd <=? 191))%nat
      then Some (pos, nd, nat_of_ascii e)
      else find_surrogate rest
             (if ((128 <=? nc) && (nc <=? 191))%nat then pos else S pos)
  | _ => None
  end.

Definition utf8_takes (v : value) : bool :=
  match v with
  | PyStr s => match find_surrogate s 0 with Some _ => false | None => true end
  | _ => true
  end.

Definition hex4 (n : N) : string :=
  hex_digit (N.to_nat (n / 4096)) ++ hex_digit (N.to_nat ((n / 256) mod 16))
    ++ hex_digit (N.to_nat ((n / 16) mod 16)) ++ hex_digit (N.to_nat (n mod 16)).

(** The text for a string whose first surrogate stands alone: the position
    counts the characters of the printed line, of which 29 come before the
    value. *)
Definition utf8_complaint (v : value) : string :=
  match v with
  | PyStr s =>
      match find_surrogate s 0 with
      | Some (pos, d, e) =>
          "utf-8' codec can't encode character '" ++ backslash ++ "u"
            ++ hex4 (53248 + (N.of_nat d - 128) * 64 + (N.of_nat e - 128))%N
            ++ "' in position " ++ decimal (Z.of_nat (29 + pos))
            ++ ": surrogates not allowed"
      | None => "utf-8' codec can't encode"
      end
  | _ => "utf-8' codec can't encode"
  end.

Lemma utf8_takes_ascii (s : string) :
  is_ascii_text s = true -> utf8_takes (PyStr s) = true.
Proof.
  unfold utf8_takes.
  assert (H : forall pos, is_ascii_text s = true -> find_surrogate s pos = None).
  { induction s as [ | c s IH]; intros pos Hs; [ reflexivity | ].
    simpl in Hs. apply andb_true_iff in Hs. destruct Hs as [Hc Hs].
    destruct s as [ | d [ | e s']]; try reflexivity.
    cbn [find_surrogate].
    apply Nat.ltb_lt in Hc.
    assert (E : (nat_of_ascii c =? 237)%nat = false)
      by (apply Nat.eqb_neq; intro E; rewrite E in Hc; revert Hc; apply Nat.lt_nge;
          repeat constructor).
    rewrite E. cbn [andb]. apply IH. exact Hs. }
  intro Hs. rewrite (H 0%nat Hs). reflexivity.
Qed.

Definition utf8_console : Console :=
  mkConsole utf8_takes utf8_complaint utf8_takes_ascii.

(** A development server that writes nothing of its own. *)
Definition silent_server : DevServer := mkDevServer [] [] (fun _ _ => EmptyString).

Definition cors_off : CorsPolicy := fun _ _ => [].
Definition cors_any_origin : CorsPolicy :=
  fun _ sofar =>
    if existsb (fun h => String.eqb (fst h) "Access-Control-Allow-Origin") sofar
    then []
    else [("Access-Control-Allow-Origin", "*")].
Definition fresh_world : World := mkWorld 0 None [] [] [].
Definition request_of (b : Body) : Request := mkRequest [] b.

(** The string holding the one character U+D800. *)
Definition lone_surrogate : string :=
  String (ascii_of_nat 237) (String (ascii_of_nat 160) (String (ascii_of_nat 128) EmptyString)).

(** [n] opening brackets. *)
Definition brackets (n : N) : string :=
  N.iter n (String "["%char) EmptyString.

(** * The application in its surroundings *)

Section Environment.

Variable console : Console.
Variable server : DevServer.

(** The first interpolated object of a line that the console cannot write. *)
Fixpoint refused (line : list Piece) : option value :=
  match line with
  | [] => None
  | Lit _ :: rest => refused rest
  | Val v :: rest => if takes console v then refused rest else Some v
  end.

(** The UnicodeEncodeError of a [print] at line [line] of [fn]. *)
Definition encode_error (line : Z) (fn : string) (v : value) : Exn :=
  mkExn UnicodeEncodeError ("'" ++ complaint console v) [mkFrame server_py line fn].

(** [print(...)] to stdout at line [line] of [fn]: the whole line is encoded
    before any of it is written. *)
Definition print (line : Z) (fn : string) (text : list Piece) : M unit :=
  fun w =>
    match refused text with
    | Some v => (Raise (encode_error line fn v), w)
    | None =>
        (Return tt,
         mkWorld (clock w) (exc_info w) (stdout w ++ [text]) (stderr w) (app_errors_log w))
    end.

(** Lines 33-54. *)
Definition trigger_error (request : Request) : M Response :=
  print 34 "trigger_error" [Lit "--- RECEIVED REQUEST TO TRIGGER ERROR ---"] ;;
  simulated_input <- read_simulated_input request ;;
  print 37 "trigger_error"
        [Lit ("Input received from client: " ++ dquote); Val simulated_input; Lit dquote] ;;
  print 38 "trigger_error"
        [Lit "--- DEMO: Triggering Handled Exception for Secure Error Handling ---"] ;;
  try_except
    (result <- truediv 43 "trigger_error" 1 0 ;;
     ret (with_status (jsonify [("message", success_message)]) 200))
    (fun e =>
       logger_error ("An error occurred during processing: " ++ exc_str e) true ;;
       print 51 "trigger_error"
             [Lit "--- SECURE: FULL STACK TRACE LOGGED INTERNALLY, NOT EXPOSED TO CLIENT ---"] ;;
       ret (with_status (jsonify [("message", local_message)]) 500)).

Section App.

(** [CORS(app)], line 29: the extension looks at the headers of the
    request and at those already on the response, and appends the
    cross-origin headers it decides on; it leaves status and body alone. *)
Variable cors_headers : CorsPolicy.

Definition after_request (request : Request) (resp : Response) : Response :=
  mkResponse (status_code resp)
             (headers resp ++ cors_headers (req_headers request) (headers resp))%list
             (data resp).

(** One request, from the view to the response sent. *)
Definition wsgi_app (request : Request) (w : World) : Response * World :=
  match trigger_error request w with
  | (Return resp, w1) => (after_request request resp, w1)
  | (Raise e, w1) =>
      let saved := exc_info w1 in
      let (resp, w2) := handle_exception e (set_exc_info (Some e) w1) in
      (after_request request resp, set_exc_info saved w2)
  end.

(** [app.run(debug=False, port=5002)] on requests that arrive one after the
    other, each with the time it arrives at; the development server logs
    each request it has served. *)
Fixpoint serve (arrivals : list (Z * Request)) (w : World) : list Response * World :=
  match arrivals with
  | [] => ([], w)
  | (t, r) :: rest =>
      let (resp, w1) := wsgi_app r (set_clock t w) in
      let (resps, w2) := serve rest (werkzeug_info (access_message server r resp) w1) in
      (resp :: resps, w2)
  end.

(** The block under [if __name__ == '__main__']: the two lines of lines
    81-82, then [app.run], which prints its banner, logs its start and
    serves. *)
Definition main (arrivals : list (Z * Request)) (w : World) : list Response * World :=
  let w1 := snd (print 81 "<module>"
                   [Lit "Python Flask Secure Backend (Error Handling) listening on http://127.0.0.1:5002"] w) in
  let w2 := snd (print 82 "<module>" [Lit "Ready to demonstrate secure error handling."] w1) in
  let w3 := mkWorld (clock w2) (exc_info w2)
                    (stdout w2 ++ map (fun s => [Lit s]) (banner server))
                    (stderr w2) (app_errors_log w2) in
  let w4 := fold_left (fun acc msg => werkzeug_info msg acc) (startup_messages server) w3 in
  serve arrivals w4.

End App.

(** ** Which requests enter the try block *)

(** The try block is entered when lines 35-36 bind a value and line 37 can
    print it. *)
Definition reaches_try (b : Body) : bool :=
  match input_of b with
  | Return v => takes console v
  | Raise _ => false
  end.

(** The exception that leaves the view when the try block is not entered. *)
Definition failure_of (b : Body) : Exn :=
  match input_of b with
  | Raise e => e
  | Return v => encode_error 37 "trigger_error" v
  end.

(** The records one request adds to the log file. *)
Definition records_of_request (b : Body) (w : World) : list LogRecord :=
  if reaches_try b then [local_record w] else unhandled_records (failure_of b) w.

(** What one request adds to stderr. *)
Definition stderr_of_request (b : Body) (w : World) : list ErrItem :=
  if reaches_try b then [ErrLog (local_record w)]
  else (map ErrLog (unhandled_records (failure_of b) w) ++ [ErrPrint unhandled_line])%list.

(** What one request adds to stdout. *)
Definition lines_of_request (b : Body) : list (list Piece) :=
  match input_of b with
  | Return v =>
      if takes console v then [received_line; input_line v; demo_line; secure_line]
      else [received_line]
  | Raise _ => [received_line]
  end.

(** The state after a request. *)
Definition after_request_world (b : Body) (w : World) : World :=
  mkWorld (clock w) (exc_info w)
          (stdout w ++ lines_of_request b)
          (stderr w ++ stderr_of_request b w)
          (app_errors_log w ++ records_of_request b w).

(** What the view does with a body, whatever the state. *)
Definition outcome_of (b : Body) : Outcome Response :=
  if reaches_try b then Return local_response else Raise (failure_of b).

(** The records a served request leaves in the file: its own, then the
    access record of the development server. *)
Definition file_records_of (cors : CorsPolicy) (a : Z * Request) : list LogRecord :=
  (records_of_request (body (snd a)) (set_clock (fst a) fresh_world)
   ++ [mkLogRecord INFO
         (access_message server (snd a) (fst (wsgi_app cors (snd a) fresh_world)))
         None (fst a)])%list.

(** * Properties *)

(** ** Running the view *)

Lemma takes_null : takes console (PyStr "null") = true.
Proof. apply takes_ascii. reflexivity. Qed.

Lemma read_simulated_input_spec (r : Request) (w : World) :
  read_simulated_input r w = (input_of (body r), w).
Proof.
  destruct r as [hs b]. unfold read_simulated_input, get_json, bind, ret.
  cbn [body]. destruct b as [raw | raw | raw note | v]; try reflexivity.
  cbn [input_of]. destruct (truthy v); [ | reflexivity ].
  destruct v; reflexivity.
Qed.

Lemma trigger_error_run (r : Request) (w : World) :
  trigger_error r w =
  (outcome_of (body r),
   if reaches_try (body r)
   then mkWorld (clock w) (exc_info w)
                (stdout w ++ lines_of_request (body r))
                (stderr w ++ [ErrLog (local_record w)])
                (app_errors_log w ++ [local_record w])
   else mkWorld (clock w) (exc_info w) (stdout w ++ [received_line])
                (stderr w) (app_errors_log w)).
Proof.
  unfold trigger_error, outcome_of, reaches_try, failure_of, lines_of_request.
  unfold bind at 1. cbn [print refused].
  unfold bind at 1. rewrite read_simulated_input_spec.
  destruct (input_of (body r)) as [v | e].
  - unfold bind at 1. unfold print at 1. cbn [refused].
    destruct (takes console v) eqn:E.
    + cbn -[String.append]. rewrite <- !app_assoc. reflexivity.
    + reflexivity.
  - reflexivity.
Qed.

Lemma lines_when_not_reached (b : Body) :
  reaches_try b = false -> lines_of_request b = [received_line].
Proof.
  unfold reaches_try, lines_of_request.
  destruct (input_of b) as [v | e]; [ | reflexivity ].
  intro H. rewrite H. reflexivity.
Qed.

Lemma trigger_error_outcome (r : Request) (w : World) :
  fst (trigger_error r w) = outcome_of (body r).
Proof. rewrite trigger_error_run. reflexivity. Qed.

Lemma trigger_error_log_any (r : Request) (w : World) :
  app_errors_log (snd (trigger_error r w)) =
  (app_errors_log w ++ (if reaches_try (body r) then [local_record w] else []))%list.
Proof.
  rewrite trigger_error_run. cbn [snd].
  destruct (reaches_try (body r)); cbn [app_errors_log];
    [ reflexivity | symmetry; apply app_nil_r ].
Qed.

Lemma trigger_error_stdout_any (r : Request) (w : World) :
  stdout (snd (trigger_error r w)) = (stdout w ++ lines_of_request (body r))%list.
Proof.
  rewrite trigger_error_run. cbn [snd].
  destruct (reaches_try (body r)) eqn:E; cbn [stdout]; [ reflexivity | ].
  rewrite (lines_when_not_reached _ E). reflexivity.
Qed.

(** A document that is truthy and no dict makes line 36 raise. *)
Lemma raising_document (b : Body) (v : value) :
  b = Json v -> truthy v = true -> is_dict v = false ->
  input_of b = Raise (no_get v) /\ reaches_try b = false /\ failure_of b = no_get v.
Proof.
  intros -> Ht Hd.
  assert (H : input_of (Json v) = Raise (no_get v)).
  { cbn [input_of]. rewrite Ht. destruct v; try reflexivity. discriminate Hd. }
  unfold reaches_try, failure_of. rewrite H. repeat split.
Qed.

(** ** The fallback handler *)

Lemma handle_secure_500_response (e : Exn) (w : World) :
  fst (handle_secure_500 e w) = global_response.
Proof. reflexivity. Qed.


(** ** One request *)

Lemma wsgi_app_run (cors : CorsPolicy) (r : Request) (w : World) :
  wsgi_app cors r w =
  (after_request cors r (if reaches_try (body r) then local_response else global_response),
   after_request_world (body r) w).
Proof.
  unfold wsgi_app, after_request_world. rewrite trigger_error_run.
  unfold outcome_of, records_of_request, stderr_of_request.
  destruct (reaches_try (body r)) eqn:E.
  - reflexivity.
  - rewrite (lines_when_not_reached _ E).
    unfold handle_exception, handle_secure_500, unhandled_records.
    cbn -[String.append jsonify]. rewrite <- !app_assoc. reflexivity.
Qed.

Lemma wsgi_app_response (cors : CorsPolicy) (r : Request) (w : World) :
  fst (wsgi_app cors r w) =
  after_request cors r (if reaches_try (body r) then local_response else global_response).
Proof. rewrite wsgi_app_run. reflexivity. Qed.

Lemma wsgi_app_world (cors : CorsPolicy) (r : Request) (w : World) :
  snd (wsgi_app cors r w) = after_request_world (body r) w.
Proof. rewrite wsgi_app_run. reflexivity. Qed.

Lemma wsgi_app_visible (cors : CorsPolicy) (r : Request) (w : World) :
  visible (fst (wsgi_app cors r w)) =
  (500%Z, if reaches_try (body r) then local_body else global_body).
Proof.
  rewrite wsgi_app_response. destruct (reaches_try (body r)); reflexivity.
Qed.

Lemma visible_inv (resp : Response) (s : Z) (d : string) :
  visible resp = (s, d) -> status_code resp = s /\ data resp = d.
Proof. unfold visible. intro H. inversion H. split; reflexivity. Qed.

Lemma wsgi_app_log (cors : CorsPolicy) (r : Request) (w : World) :
  app_errors_log (snd (wsgi_app cors r w)) =
  (app_errors_log w ++ records_of_request (body r) w)%list.
Proof. rewrite wsgi_app_world. reflexivity. Qed.

Lemma wsgi_app_stderr (cors : CorsPolicy) (r : Request) (w : World) :
  stderr (snd (wsgi_app cors r w)) = (stderr w ++ stderr_of_request (body r) w)%list.
Proof. rewrite wsgi_app_world. reflexivity. Qed.

Lemma wsgi_app_stdout (cors : CorsPolicy) (r : Request) (w : World) :
  stdout (snd (wsgi_app cors r w)) = (stdout w ++ lines_of_request (body r))%list.
Proof. rewrite wsgi_app_world. reflexivity. Qed.

Lemma wsgi_app_exc_info (cors : CorsPolicy) (r : Request) (w : World) :
  exc_info (snd (wsgi_app cors r w)) = exc_info w.
Proof. rewrite wsgi_app_world. reflexivity. Qed.

Lemma wsgi_app_clock (cors : CorsPolicy) (r : Request) (w : World) :
  clock (snd (wsgi_app cors r w)) = clock w.
Proof. rewrite wsgi_app_world. reflexivity. Qed.

Lemma bodies_differ :
  local_body <> global_body /\ success_body <> local_body /\ success_body <> global_body.
Proof. repeat split; intro H; vm_compute in H; discriminate H. Qed.

(** ** Lists and texts *)

Lemma skipn_own_length {A} (l new : list A) :
  skipn (List.length l) (l ++ new)%list = new.
Proof. induction l as [ | x l IH]; simpl; [ reflexivity | exact IH ]. Qed.

Lemma firstn_own_length {A} (l new : list A) :
  firstn (List.length l) (l ++ new)%list = l.
Proof. induction l as [ | x l IH]; simpl; [ reflexivity | rewrite IH; reflexivity ]. Qed.

Lemma prefix_app_left (a s h : string) :
  String.prefix (a ++ s) h = true -> String.prefix a h = true.
Proof.
  revert h. induction a as [ | c a IH]; intros h H.
  - destruct h; reflexivity.
  - destruct h as [ | c' h]; simpl in *; [ discriminate H | ].
    destruct (ascii_dec c c'); [ apply IH; exact H | discriminate H ].
Qed.

Lemma contains_app_left (a s h : string) :
  contains (a ++ s) h = true -> contains a h = true.
Proof.
  induction h as [ | c h IH]; cbn [contains]; intro H.
  - destruct (String.prefix (a ++ s) EmptyString) eqn:E; [ | discriminate H ].
    rewrite (prefix_app_left a s _ E). reflexivity.
  - destruct (String.prefix (a ++ s) (String c h)) eqn:E.
    + rewrite (prefix_app_left a s _ E). reflexivity.
    + destruct (String.prefix a (String c h)); [ reflexivity | apply IH; exact H ].
Qed.

Lemma not_contains_app (a s h : string) :
  contains a h = false -> contains (a ++ s) h = false.
Proof.
  intro H. destruct (contains (a ++ s) h) eqn:E; [ | reflexivity ].
  rewrite (contains_app_left a s h E) in H. discriminate H.
Qed.

Lemma stderr_records_app (l1 l2 : list ErrItem) :
  stderr_records (l1 ++ l2) = (stderr_records l1 ++ stderr_records l2)%list.
Proof.
  induction l1 as [ | [line | rec] l1 IH]; simpl.
  - reflexivity.
  - exact IH.
  - rewrite IH. reflexivity.
Qed.

(** ** No detail in the bodies *)

Ltac absent :=
  first [ vm_compute; reflexivity
        | apply not_contains_app; vm_compute; reflexivity ].

(** The exceptions that can leave the view: the three of lines 35-37. *)
Lemma failure_cases (b : Body) :
  reaches_try b = false ->
  (exists raw note, b = TooDeep raw note /\ failure_of b = too_deep 35 "trigger_error" note) \/
  (exists v, b = Json v /\ truthy v = true /\ is_dict v = false /\ failure_of b = no_get v) \/
  (exists v, input_of b = Return v /\ takes console v = false /\
             failure_of b = encode_error 37 "trigger_error" v).
Proof.
  unfold reaches_try, failure_of. intro H.
  destruct (input_of b) as [x | e] eqn:I.
  - right. right. exists x. repeat split. exact H.
  - destruct b as [raw | raw | raw note | v]; try discriminate I.
    + left. exists raw, note. split; [ reflexivity | ].
      cbn [input_of] in I. injection I as <-. reflexivity.
    + right. left. exists v. cbn [input_of] in I.
      destruct (truthy v) eqn:Ht; [ | discriminate I ].
      destruct v; try discriminate I; injection I as <-; repeat split.
Qed.

Lemma unhandled_records_do_not_leak (b : Body) (w : World) :
  reaches_try b = false ->
  forallb (fun rec => negb (leaks global_body rec))
          (unhandled_records (failure_of b) w) = true.
Proof.
  intro H.
  destruct (failure_cases b H) as [(raw & note & _ & ->) | [(v & _ & _ & Hd & ->) | (v & _ & _ & ->)]];
    unfold unhandled_records, leaks, record_details, exn_details, format_exception,
           too_deep, no_get, encode_error;
    cbn -[String.append contains global_body];
    try (destruct v; try discriminate Hd; cbn -[String.append contains global_body]);
    repeat match goal with
           | |- context [contains ?d global_body] =>
               let E := fresh "E" in
               assert (E : contains d global_body = false) by absent;
               rewrite E; clear E
           end;
    reflexivity.
Qed.

Lemma no_record_leaks (b : Body) (w : World) :
  forallb (fun rec => negb (leaks (if reaches_try b then local_body else global_body) rec))
          (records_of_request b w) = true.
Proof.
  unfold records_of_request.
  destruct (reaches_try b) eqn:E.
  - vm_compute. reflexivity.
  - apply unhandled_records_do_not_leak. exact E.
Qed.

(** ** The trigger endpoint *)

(** The text of the bodies, character by character. *)
Example local_body_text :
  local_body =
  "{" ++ dquote ++ "message" ++ dquote ++ ":" ++ dquote
      ++ "An internal server error occurred. Please try again later."
      ++ dquote ++ "}" ++ newline.
Proof. reflexivity. Qed.

Example global_body_text :
  global_body =
  "{" ++ dquote ++ "message" ++ dquote ++ ":" ++ dquote
      ++ "An unexpected internal server error occurred. Please contact support if the issue persists."
      ++ dquote ++ "}" ++ newline.
Proof. reflexivity. Qed.

(** C7.  When the body parses to a truthy document that is not an object,
    line 36 raises AttributeError: the view has printed its first line only,
    nothing of the try block has run, and the response is the one of the
    fallback handler, with its own message and not the local one. *)
Theorem truthy_non_object_goes_global
    (cors : CorsPolicy) (r : Request) (v : value) (w : World) :
  body r = Json v -> truthy v = true -> is_dict v = false ->
  fst (trigger_error r w) =
    Raise (mkExn AttributeError
                 ("'" ++ type_name v ++ "' object has no attribute 'get'")
                 [mkFrame server_py 36 "trigger_error"]) /\
  stdout (snd (trigger_error r w)) =
    (stdout w ++ [[Lit "--- RECEIVED REQUEST TO TRIGGER ERROR ---"]])%list /\
  app_errors_log (snd (trigger_error r w)) = app_errors_log w /\
  status_code (fst (wsgi_app cors r w)) = 500%Z /\
  data (fst (wsgi_app cors r w)) = dumps [("message", global_message)] ++ newline /\
  data (fst (wsgi_app cors r w)) <> data local_response.
Proof.
  intros Hb Ht Hd.
  destruct (raising_document (body r) v Hb Ht Hd) as (_ & Hreach & Hfail).
  rewrite trigger_error_run, wsgi_app_response, Hreach. cbn [fst snd stdout app_errors_log].
  unfold outcome_of. rewrite Hreach, Hfail.
  split; [ reflexivity | ].
  split; [ reflexivity | ].
  split; [ reflexivity | ].
  split; [ reflexivity | ].
  split; [ reflexivity | ].
  change (data (after_request cors r global_response)) with global_body.
  change (data local_response) with local_body.
  intro H. symmetry in H. exact (proj1 bodies_differ H).
Qed.

(** ** The fallback handler, as the client sees it *)


(** ** The success branch *)

Lemma truediv_by_zero (line : Z) (fn : string) (a : Z) (w : World) :
  truediv line fn a 0 w = (Raise (mkExn ZeroDivisionError "division by zero"
                                        [mkFrame server_py line fn]), w).
Proof. reflexivity. Qed.

(** C4.  The division of line 43 raises ZeroDivisionError in every state, so
    the view never returns the response of its success branch: whenever it
    returns, it returns status 500 with the local body, and otherwise it has
    raised on one of the lines 35 to 37, before the try block.  No request
    is answered with status 200 or with the success text. *)
Theorem success_branch_unreachable
    (cors : CorsPolicy) (r : Request) (w : World) :
  fst (truediv 43 "trigger_error" 1 0 w) = Raise zero_division /\
  match fst (trigger_error r w) with
  | Return resp => status_code resp = 500%Z /\ data resp = local_body
  | Raise e => exc_class e = RecursionError \/ exc_class e = AttributeError \/
               exc_class e = UnicodeEncodeError
  end /\
  fst (trigger_error r w) <> Return success_response /\
  status_code (fst (wsgi_app cors r w)) <> 200%Z /\
  data (fst (wsgi_app cors r w)) <> success_body.
Proof.
  split; [ rewrite truediv_by_zero; reflexivity | ].
  destruct (visible_inv _ _ _ (wsgi_app_visible cors r w)) as [Hs Hd].
  rewrite Hs, Hd, trigger_error_outcome. unfold outcome_of.
  destruct (reaches_try (body r)) eqn:E.
  - split; [ split; reflexivity | ].
    split; [ intro H; inversion H | ].
    split; [ discriminate | ].
    intro H. symmetry in H. exact (proj1 (proj2 bodies_differ) H).
  - split.
    + destruct (failure_cases (body r) E)
        as [(raw & note & _ & ->) | [(v & _ & _ & _ & ->) | (v & _ & _ & ->)]];
        [ left | right; left | right; right ]; reflexivity.
    + split; [ discriminate | ].
      split; [ discriminate | ].
      intro H. symmetry in H. exact (proj2 (proj2 bodies_differ) H).
Qed.

(** ** What may not reach the client *)

(** The two predicates do reject a careless handler: a body made of
    [str(e)], or of a line of the formatted traceback, is caught. *)
Example leaks_catches_exception_text :
  leaks (dumps [("message", exc_str zero_division)]) (local_record fresh_world) = true /\
  forallb (fun line => negb (generic_only (dumps [("message", line)])))
          (format_exception zero_division) = true.
Proof. split; vm_compute; reflexivity. Qed.

Lemma records_of_request_not_nil (b : Body) (w : World) :
  records_of_request b w <> [].
Proof.
  unfold records_of_request, unhandled_records.
  destruct (reaches_try b); discriminate.
Qed.

(** C2.  On either error path the body sent is one of the two fixed texts.
    Neither holds an exception class name, the word Traceback, a file path
    or a digit, and no detail of any record the request added to the log
    (its message, the text, class, file, line and function of the logged
    exception, the lines of its formatted traceback) occurs in the body.
    The body of the fallback handler is the same for every exception. *)
Theorem responses_carry_no_detail
    (cors : CorsPolicy) (r : Request) (w : World) (e : Exn) (w1 : World) :
  let resp := fst (wsgi_app cors r w) in
  let logged := skipn (List.length (app_errors_log w))
                      (app_errors_log (snd (wsgi_app cors r w))) in
  (data resp = local_body \/ data resp = global_body) /\
  generic_only (data resp) = true /\
  contains "ZeroDivision" (data resp) = false /\
  contains "Traceback" (data resp) = false /\
  logged <> [] /\
  forallb (fun rec => negb (leaks (data resp) rec)) logged = true /\
  data (fst (handle_secure_500 e w1)) = global_body /\
  generic_only (data (fst (handle_secure_500 e w1))) = true.
Proof.
  intros resp logged. subst resp logged.
  rewrite wsgi_app_log, skipn_own_length.
  destruct (visible_inv _ _ _ (wsgi_app_visible cors r w)) as [_ Hd].
  rewrite Hd. clear Hd.
  pose proof (no_record_leaks (body r) w) as Hleak.
  pose proof (records_of_request_not_nil (body r) w) as Hnil.
  rewrite handle_secure_500_response.
  change (data global_response) with global_body.
  destruct (reaches_try (body r)).
  - split; [ left; reflexivity | ].
    do 3 (split; [ vm_compute; reflexivity | ]).
    split; [ exact Hnil | split; [ exact Hleak | split; vm_compute; reflexivity ] ].
  - split; [ right; reflexivity | ].
    do 3 (split; [ vm_compute; reflexivity | ]).
    split; [ exact Hnil | split; [ exact Hleak | split; vm_compute; reflexivity ] ].
Qed.

(** ** Independence of the state *)

(** C9.  The outcome of the view and the response sent are functions of the
    request alone: two runs on the same request, from any two states (other
    clock, other log and console contents, other exception in flight), give
    the same outcome and the same response, and so does a second run that
    starts where the first one ended.  The failing operation is tried once:
    one run of the view writes one record when it enters the try block and
    none otherwise.  The failure is dealt with before the request ends: no
    exception is left in flight. *)
Theorem trigger_is_deterministic
    (cors : CorsPolicy) (r : Request) (w1 w2 : World) :
  fst (trigger_error r w1) = fst (trigger_error r w2) /\
  fst (wsgi_app cors r w1) = fst (wsgi_app cors r w2) /\
  fst (wsgi_app cors r (snd (wsgi_app cors r w1))) = fst (wsgi_app cors r w1) /\
  app_errors_log (snd (trigger_error r w1)) =
    (app_errors_log w1 ++ (if reaches_try (body r) then [local_record w1] else []))%list /\
  exc_info (snd (wsgi_app cors r w1)) = exc_info w1.
Proof.
  split; [ rewrite !trigger_error_outcome; reflexivity | ].
  split; [ rewrite !wsgi_app_response; reflexivity | ].
  split; [ rewrite !wsgi_app_response; reflexivity | ].
  split; [ apply trigger_error_log_any | apply wsgi_app_exc_info ].
Qed.

(** ** What is logged *)

Lemma stderr_records_of_request (b : Body) (w : World) :
  stderr_records (stderr_of_request b w) = records_of_request b w.
Proof.
  unfold stderr_of_request, records_of_request.
  destruct (reaches_try b); reflexivity.
Qed.

Lemma failure_has_a_trace (b : Body) :
  reaches_try b = false -> traceback (failure_of b) <> [].
Proof.
  intro H.
  destruct (failure_cases b H)
    as [(raw & note & _ & ->) | [(v & _ & _ & _ & ->) | (v & _ & _ & ->)]];
    discriminate.
Qed.

(** C6, as amended.  A request that fails inside the try block adds exactly
    one ERROR record to the log file: its message ends with the text of the
    exception, division by zero, and it carries that exception with the
    frame of line 43 as its stack trace.  A request that fails before the
    try block, on line 35, 36 or 37, adds two: the record the framework
    writes for the exception that left the view and the record of line 63,
    both carrying that exception and its stack trace, which is not empty.
    Either way the records are mirrored on stderr, and no detail of any of
    them is in the response. *)
Theorem failed_request_log_entries
    (cors : CorsPolicy) (r : Request) (w : World) :
  let resp := fst (wsgi_app cors r w) in
  let logged := skipn (List.length (app_errors_log w))
                      (app_errors_log (snd (wsgi_app cors r w))) in
  (if reaches_try (body r)
   then logged =
        [mkLogRecord ERROR
           ("An error occurred during processing: " ++ "division by zero")
           (Some (mkExn ZeroDivisionError "division by zero"
                        [mkFrame server_py 43 "trigger_error"]))
           (clock w)]
   else exists e,
        fst (trigger_error r w) = Raise e /\ traceback e <> [] /\
        logged =
        [mkLogRecord ERROR "Exception on /api/error/trigger [POST]" (Some e) (clock w);
         mkLogRecord ERROR
           ("An unhandled internal server error occurred: "
              ++ exc_str internal_server_error)
           (Some e) (clock w)]) /\
  stderr_records (skipn (List.length (stderr w)) (stderr (snd (wsgi_app cors r w))))
    = logged /\
  forallb (fun rec => negb (leaks (data resp) rec)) logged = true.
Proof.
  intros resp logged. subst resp logged.
  rewrite wsgi_app_log, wsgi_app_stderr, !skipn_own_length, stderr_records_of_request.
  destruct (visible_inv _ _ _ (wsgi_app_visible cors r w)) as [_ Hd]. rewrite Hd.
  pose proof (no_record_leaks (body r) w) as Hleak.
  rewrite trigger_error_outcome. unfold outcome_of.
  unfold records_of_request in *.
  destruct (reaches_try (body r)) eqn:E.
  - split; [ reflexivity | split; [ reflexivity | exact Hleak ] ].
  - split; [ | split; [ reflexivity | exact Hleak ] ].
    exists (failure_of (body r)).
    split; [ reflexivity | split; [ exact (failure_has_a_trace _ E) | reflexivity ] ].
Qed.

(** * Beyond the endpoint: streams, headers and the process *)

(** ** What one request writes *)

(** X4.  A request only appends: what stdout, stderr and the log file held
    before it is still there, unchanged and in front, after it; and every
    request leaves at least one line on stdout and one record in the file. *)
Theorem request_only_appends
    (cors : CorsPolicy) (r : Request) (w : World) :
  let w' := snd (wsgi_app cors r w) in
  firstn (List.length (stdout w)) (stdout w') = stdout w /\
  firstn (List.length (stderr w)) (stderr w') = stderr w /\
  firstn (List.length (app_errors_log w)) (app_errors_log w') = app_errors_log w /\
  (List.length (stdout w) < List.length (stdout w'))%nat /\
  (List.length (app_errors_log w) < List.length (app_errors_log w'))%nat.
Proof.
  intro w'. subst w'.
  rewrite wsgi_app_stdout, wsgi_app_stderr, wsgi_app_log.
  rewrite !firstn_own_length, !length_app.
  do 3 (split; [ reflexivity | ]).
  split.
  - unfold lines_of_request. destruct (input_of (body r)) as [v | e];
      [ destruct (takes console v) | ]; simpl;
      apply Nat.lt_add_pos_r; apply Nat.lt_0_succ.
  - unfold records_of_request. destruct (reaches_try (body r)); simpl;
      apply Nat.lt_add_pos_r; apply Nat.lt_0_succ.
Qed.

(** X9.  When line 36 raises, stderr receives three items in this order: the
    record the framework writes for the exception that left the view, the
    record of line 63, and the line printed on line 64.  Both records carry
    the AttributeError of line 36 as exception information; the message of
    the second one is built from the InternalServerError the handler is
    given, not from the AttributeError. *)
Theorem stderr_trace_of_an_unhandled_failure
    (cors : CorsPolicy) (r : Request) (v : value) (w : World) :
  body r = Json v -> truthy v = true -> is_dict v = false ->
  skipn (List.length (stderr w)) (stderr (snd (wsgi_app cors r w))) =
  [ErrLog (mkLogRecord ERROR "Exception on /api/error/trigger [POST]"
                       (Some (no_get v)) (clock w));
   ErrLog (mkLogRecord ERROR
             ("An unhandled internal server error occurred: "
                ++ exc_str internal_server_error)
             (Some (no_get v)) (clock w));
   ErrPrint unhandled_line] /\
  contains (exc_str (no_get v))
           ("An unhandled internal server error occurred: "
              ++ exc_str internal_server_error) = false.
Proof.
  intros Hb Ht Hd.
  destruct (raising_document (body r) v Hb Ht Hd) as (_ & Hreach & Hfail).
  rewrite wsgi_app_stderr, skipn_own_length.
  unfold stderr_of_request. rewrite Hreach, Hfail.
  split; [ reflexivity | ].
  destruct v; try discriminate Hd; vm_compute; reflexivity.
Qed.

Lemma mirror_step (cors : CorsPolicy) (r : Request) (w : World) :
  stderr_records (stderr w) = filter is_error_record (app_errors_log w) ->
  stderr_records (stderr (snd (wsgi_app cors r w))) =
  filter is_error_record (app_errors_log (snd (wsgi_app cors r w))).
Proof.
  intro H.
  rewrite wsgi_app_stderr, wsgi_app_log, stderr_records_app, filter_app, H.
  rewrite stderr_records_of_request. f_equal.
  unfold records_of_request. destruct (reaches_try (body r)); reflexivity.
Qed.

Lemma mirror_werkzeug (msg : string) (w : World) :
  stderr_records (stderr w) = filter is_error_record (app_errors_log w) ->
  stderr_records (stderr (werkzeug_info msg w)) =
  filter is_error_record (app_errors_log (werkzeug_info msg w)).
Proof.
  intro H. unfold werkzeug_info. cbn [stderr app_errors_log].
  change (file_handler_level <=? INFO)%Z with true. cbn iota.
  rewrite filter_app. cbn [filter is_error_record levelno].
  change (ERROR <=? INFO)%Z with false. cbn iota.
  rewrite app_nil_r. exact H.
Qed.

Lemma mirror_serve (cors : CorsPolicy) (arrivals : list (Z * Request)) (w : World) :
  stderr_records (stderr w) = filter is_error_record (app_errors_log w) ->
  stderr_records (stderr (snd (serve cors arrivals w))) =
  filter is_error_record (app_errors_log (snd (serve cors arrivals w))).
Proof.
  revert w. induction arrivals as [ | [t r] rest IH]; intros w H.
  - exact H.
  - cbn [serve].
    pose proof (mirror_step cors r (set_clock t w) H) as Hs.
    destruct (wsgi_app cors r (set_clock t w)) as [resp w1]. cbn [snd] in Hs.
    pose proof (IH _ (mirror_werkzeug (access_message server r resp) w1 Hs)) as Hr.
    destruct (serve cors rest (werkzeug_info (access_message server r resp) w1))
      as [resps w2].
    exact Hr.
Qed.

Lemma mirror_startup (msgs : list string) (w : World) :
  stderr_records (stderr w) = filter is_error_record (app_errors_log w) ->
  stderr_records (stderr (fold_left (fun acc msg => werkzeug_info msg acc) msgs w)) =
  filter is_error_record
    (app_errors_log (fold_left (fun acc msg => werkzeug_info msg acc) msgs w)).
Proof.
  revert w. induction msgs as [ | m msgs IH]; intros w H; [ exact H | ].
  cbn [fold_left]. apply IH. apply mirror_werkzeug. exact H.
Qed.

(** X3.  Every record written at ERROR to the log file is mirrored on
    stderr and nothing else is: if the log records on stderr are the ERROR
    records of the file when the process starts, they still are after any
    run, although the development server writes its own INFO records to the
    file between them. *)
Theorem stderr_mirrors_the_error_records
    (cors : CorsPolicy) (arrivals : list (Z * Request)) (w : World) :
  stderr_records (stderr w) = filter is_error_record (app_errors_log w) ->
  stderr_records (stderr (snd (main cors arrivals w))) =
  filter is_error_record (app_errors_log (snd (main cors arrivals w))).
Proof.
  intro H. unfold main. apply mirror_serve. apply mirror_startup. exact H.
Qed.

(** ** Headers *)

(** X5.  Whatever the request, the response is a JSON document with status
    500: its first two headers are the JSON content type and the length of
    the body, as [jsonify] sets them, and the body is the text of a JSON
    object with the single field message, holding one of the two generic
    messages, followed by a newline.  No error is answered with an HTML
    page. *)
Theorem every_response_is_json_500
    (cors : CorsPolicy) (r : Request) (w : World) :
  let resp := fst (wsgi_app cors r w) in
  status_code resp = 500%Z /\
  firstn 2 (headers resp) =
    [("Content-Type", "application/json");
     ("Content-Length", decimal (Z.of_nat (String.length (data resp))))] /\
  exists m, (m = local_message \/ m = global_message) /\
            data resp = dumps [("message", m)] ++ newline.
Proof.
  intro resp. subst resp. rewrite wsgi_app_response.
  destruct (reaches_try (body r)).
  - split; [ reflexivity | split; [ reflexivity | ] ].
    exists local_message. split; [ left | ]; reflexivity.
  - split; [ reflexivity | split; [ reflexivity | ] ].
    exists global_message. split; [ right | ]; reflexivity.
Qed.

(** X6.  The view sets no cross-origin header of its own: when the try block
    is entered, the headers sent are the content type and the content
    length that [jsonify] sets, followed by whatever the extension of line
    29 adds, and nothing else.  With an extension that adds nothing, that
    response has no Access-Control-Allow-Origin header, while the response
    of the fallback handler has one all the same. *)
Theorem view_leaves_cross_origin_to_the_extension
    (cors : CorsPolicy) (r r' : Request) (w w' : World) :
  reaches_try (body r) = true ->
  reaches_try (body r') = false ->
  headers (fst (wsgi_app cors r w)) =
    ("Content-Type", "application/json")
      :: ("Content-Length", decimal (Z.of_nat (String.length local_body)))
      :: cors (req_headers r)
              [("Content-Type", "application/json");
               ("Content-Length", decimal (Z.of_nat (String.length local_body)))] /\
  existsb (fun h => String.eqb (fst h) "Access-Control-Allow-Origin")
          (headers (fst (wsgi_app cors_off r w))) = false /\
  existsb (fun h => String.eqb (fst h) "Access-Control-Allow-Origin")
          (headers (fst (wsgi_app cors_off r' w'))) = true.
Proof.
  intros H H'. rewrite !wsgi_app_response, H, H'.
  split; [ reflexivity | split; reflexivity ].
Qed.

(** ** The input and the console *)

Lemma input_line_printed (b : Body) (v : value) (l : list (list Piece)) :
  input_of b = Return v -> takes console v = true ->
  In (input_line v) (l ++ lines_of_request b).
Proof.
  intros Hi Ht. unfold lines_of_request. rewrite Hi, Ht.
  apply in_or_app. right. right. left. reflexivity.
Qed.

(** X7.  When the body is a JSON object that has the key simulatedInput, the
    value read is the value under the key, as it is and whatever its type:
    there is no validation, and a key bound to null yields None, not the
    default string.  If the console can write the value, it is printed on
    line 37 and the request is answered by the except block; if it cannot,
    line 37 raises UnicodeEncodeError outside the try block, nothing but
    the line of line 34 has been printed, and the fallback handler
    answers. *)
Theorem present_key_is_read_as_it_is
    (cors : CorsPolicy) (r : Request) (items : list (string * value))
    (v : value) (w : World) :
  body r = Json (PyDict items) ->
  dict_lookup "simulatedInput" items = Some v ->
  read_simulated_input r w = (Return v, w) /\
  (if takes console v
   then In (input_line v) (stdout (snd (trigger_error r w))) /\
        visible (fst (wsgi_app cors r w)) = (500%Z, local_body)
   else fst (trigger_error r w) =
          Raise (mkExn UnicodeEncodeError ("'" ++ complaint console v)
                       [mkFrame server_py 37 "trigger_error"]) /\
        stdout (snd (trigger_error r w)) = (stdout w ++ [received_line])%list /\
        visible (fst (wsgi_app cors r w)) = (500%Z, global_body)).
Proof.
  intros Hb Hk.
  assert (Hi : input_of (body r) = Return v).
  { rewrite Hb. cbn [input_of]. destruct items as [ | kv rest]; [ discriminate Hk | ].
    cbn [truthy]. rewrite Hk. reflexivity. }
  split; [ rewrite read_simulated_input_spec, Hi; reflexivity | ].
  rewrite wsgi_app_visible, trigger_error_stdout_any, trigger_error_outcome.
  unfold outcome_of, reaches_try, failure_of. rewrite Hi.
  destruct (takes console v) eqn:Ht.
  - split; [ exact (input_line_printed _ v _ Hi Ht) | reflexivity ].
  - split; [ reflexivity | split; [ | reflexivity ] ].
    unfold lines_of_request. rewrite Hi, Ht. reflexivity.
Qed.

(** X8.  What a request leaves on stdout: always the line of line 34 first;
    then, when lines 35-36 yield a value that the console can write, the
    line showing that value, the line of line 38 and the line of line 51,
    in that order; and nothing more when one of the lines 35 to 37 raises.
    The fallback handler and the framework add nothing to stdout.  So the
    line saying that the stack trace was logged is there exactly when the
    view wrote its record. *)
Theorem console_trace_of_a_request
    (cors : CorsPolicy) (r : Request) (w : World) :
  let added := skipn (List.length (stdout w)) (stdout (snd (wsgi_app cors r w))) in
  added = match fst (read_simulated_input r w) with
          | Return v =>
              if takes console v
              then [received_line; input_line v; demo_line; secure_line]
              else [received_line]
          | Raise _ => [received_line]
          end /\
  hd_error added = Some received_line /\
  (if reaches_try (body r)
   then last added [] = secure_line /\
        app_errors_log (snd (trigger_error r w)) = (app_errors_log w ++ [local_record w])%list
   else added = [received_line] /\
        app_errors_log (snd (trigger_error r w)) = app_errors_log w).
Proof.
  intro added. subst added.
  rewrite wsgi_app_stdout, skipn_own_length, trigger_error_log_any.
  rewrite read_simulated_input_spec. cbn [fst].
  unfold lines_of_request, reaches_try.
  destruct (input_of (body r)) as [v | e].
  - destruct (takes console v).
    + repeat split.
    + repeat split. apply app_nil_r.
  - repeat split. apply app_nil_r.
Qed.

(** X13.  Which handler answers: status is always 500, and the body is the
    one of the except block exactly when lines 35-36 yield a value and the
    console can write it on line 37; in every other case one of the lines
    35 to 37 has raised outside the try block and the body is the one of the
    fallback handler. *)
Theorem who_answers
    (cors : CorsPolicy) (r : Request) (w : World) :
  visible (fst (wsgi_app cors r w)) =
  (500%Z,
   match fst (read_simulated_input r w) with
   | Return v => if takes console v then local_body else global_body
   | Raise _ => global_body
   end) /\
  match fst (trigger_error r w) with
  | Return resp => resp = local_response
  | Raise e => In (lineno (hd (mkFrame server_py 0 EmptyString) (traceback e)))
                  [35%Z; 36%Z; 37%Z]
  end.
Proof.
  rewrite wsgi_app_visible, read_simulated_input_spec, trigger_error_outcome.
  cbn [fst]. unfold outcome_of.
  split.
  - unfold reaches_try. destruct (input_of (body r)); reflexivity.
  - destruct (reaches_try (body r)) eqn:E; [ reflexivity | ].
    destruct (failure_cases (body r) E)
      as [(raw & note & _ & ->) | [(v & _ & _ & _ & ->) | (v & _ & _ & ->)]];
      cbn; tauto.
Qed.

(** X14.  When no value for simulatedInput arrives (the body is absent, is
    rejected by the decoder as malformed, parses to a falsy document or to an
    object without the key), lines 35-36 bind the string null and change no
    state; every console can write it, so the line of line 37 shows it and
    the except block answers. *)
Theorem absent_input_defaults_to_null
    (cors : CorsPolicy) (r : Request) (w : World) :
  no_simulated_input (body r) = true ->
  read_simulated_input r w = (Return (PyStr "null"), w) /\
  In (input_line (PyStr "null")) (stdout (snd (trigger_error r w))) /\
  visible (fst (wsgi_app cors r w)) = (500%Z, local_body).
Proof.
  intro H.
  assert (Hi : input_of (body r) = Return (PyStr "null")).
  { destruct (body r) as [raw | raw | raw note | v]; try reflexivity;
      [ discriminate H | ].
    cbn [input_of no_simulated_input] in *.
    destruct v; try (apply negb_true_iff in H; rewrite H; reflexivity).
    destruct items as [ | kv rest]; [ reflexivity | ].
    cbn [truthy]. destruct (dict_lookup "simulatedInput" (kv :: rest));
      [ discriminate H | reflexivity ]. }
  split; [ rewrite read_simulated_input_spec, Hi; reflexivity | ].
  rewrite trigger_error_stdout_any, wsgi_app_visible.
  unfold reaches_try. rewrite Hi, takes_null.
  split; [ exact (input_line_printed _ _ _ Hi takes_null) | reflexivity ].
Qed.

(** X15.  A request with no body, a request with the empty JSON object and
    a request with the object holding simulatedInput x get the same status
    and the same body, from whatever states they are served: status 500 and
    the body of the except block. *)
Theorem named_requests_get_the_same_answer
    (cors : CorsPolicy) (r1 r2 r3 : Request) (w1 w2 w3 : World) :
  body r1 = NotJson EmptyString ->
  body r2 = Json (PyDict []) ->
  body r3 = Json (PyDict [("simulatedInput", PyStr "x")]) ->
  visible (fst (wsgi_app cors r1 w1)) = (500%Z, local_body) /\
  visible (fst (wsgi_app cors r2 w2)) = visible (fst (wsgi_app cors r1 w1)) /\
  visible (fst (wsgi_app cors r3 w3)) = visible (fst (wsgi_app cors r1 w1)).
Proof.
  intros H1 H2 H3.
  rewrite !wsgi_app_visible, H1, H2, H3. unfold reaches_try. cbn [input_of truthy].
  cbn [dict_lookup String.eqb Ascii.eqb Bool.eqb].
  rewrite takes_null, (takes_ascii console "x" eq_refl).
  repeat split.
Qed.

(** ** A run of the process *)

Lemma serve_cons (cors : CorsPolicy) (t : Z) (r : Request)
    (rest : list (Z * Request)) (w : World) :
  serve cors ((t, r) :: rest) w =
  (fst (wsgi_app cors r (set_clock t w))
     :: fst (serve cors rest
               (werkzeug_info
                  (access_message server r (fst (wsgi_app cors r (set_clock t w))))
                  (snd (wsgi_app cors r (set_clock t w))))),
   snd (serve cors rest
          (werkzeug_info
             (access_message server r (fst (wsgi_app cors r (set_clock t w))))
             (snd (wsgi_app cors r (set_clock t w)))))).
Proof.
  cbn [serve]. destruct (wsgi_app cors r (set_clock t w)) as [resp w1]. cbn [fst snd].
  destruct (serve cors rest (werkzeug_info (access_message server r resp) w1))
    as [resps w2]. reflexivity.
Qed.

Lemma serve_responses (cors : CorsPolicy) (arrivals : list (Z * Request)) (w : World) :
  fst (serve cors arrivals w) =
  map (fun a => fst (wsgi_app cors (snd a) fresh_world)) arrivals.
Proof.
  revert w. induction arrivals as [ | [t r] rest IH]; intro w.
  - reflexivity.
  - rewrite serve_cons. cbn [fst map snd]. rewrite IH.
    f_equal. rewrite !wsgi_app_response. reflexivity.
Qed.


(** X10.  Requests do not influence one another: in a run of the process on
    any sequence of requests, arriving at any times, from any starting
    state, each response is the one the same request gets alone on a process
    just started. *)
Theorem responses_do_not_depend_on_history
    (cors : CorsPolicy) (arrivals : list (Z * Request)) (w : World) :
  fst (main cors arrivals w) =
  map (fun a => fst (wsgi_app cors (snd a) fresh_world)) arrivals /\
  Forall (fun resp => status_code resp = 500%Z /\
                      (data resp = local_body \/ data resp = global_body))
         (fst (main cors arrivals w)).
Proof.
  unfold main. rewrite serve_responses.
  split; [ reflexivity | ].
  apply Forall_forall. intros resp Hin.
  apply in_map_iff in Hin. destruct Hin as ([t r] & <- & _). cbn [snd].
  destruct (visible_inv _ _ _ (wsgi_app_visible cors r fresh_world)) as [Hs Hd].
  split; [ exact Hs | ].
  rewrite Hd. destruct (reaches_try (body r)); [ left | right ]; reflexivity.
Qed.



Lemma serve_log (cors : CorsPolicy) (arrivals : list (Z * Request)) (w : World) :
  app_errors_log (snd (serve cors arrivals w)) =
  (app_errors_log w ++ flat_map (file_records_of cors) arrivals)%list.
Proof.
  revert w. induction arrivals as [ | [t r] rest IH]; intro w.
  - simpl. symmetry. apply app_nil_r.
  - rewrite serve_cons. cbn [snd flat_map]. rewrite IH.
    unfold werkzeug_info, file_records_of. cbn [app_errors_log fst snd].
    change (file_handler_level <=? INFO)%Z with true. cbn iota.
    rewrite wsgi_app_log, wsgi_app_clock, !wsgi_app_response.
    cbn [set_clock clock app_errors_log]. rewrite <- !app_assoc. reflexivity.
Qed.

Lemma startup_log (msgs : list string) (w : World) :
  app_errors_log (fold_left (fun acc msg => werkzeug_info msg acc) msgs w) =
  (app_errors_log w ++ map (fun m => mkLogRecord INFO m None (clock w)) msgs)%list.
Proof.
  revert w. induction msgs as [ | m msgs IH]; intro w.
  - simpl. symmetry. apply app_nil_r.
  - cbn [fold_left map]. rewrite IH. unfold werkzeug_info. cbn [app_errors_log clock].
    change (file_handler_level <=? INFO)%Z with true. cbn iota.
    rewrite <- app_assoc. reflexivity.
Qed.

Lemma error_records_of (cors : CorsPolicy) (a : Z * Request) :
  filter is_error_record (file_records_of cors a) =
  records_of_request (body (snd a)) (set_clock (fst a) fresh_world).
Proof.
  unfold file_records_of, records_of_request. rewrite filter_app.
  cbn [filter is_error_record levelno].
  change (ERROR <=? INFO)%Z with false. cbn iota. rewrite app_nil_r.
  destruct (reaches_try (body (snd a))); reflexivity.
Qed.

(** X11.  What a run leaves in the log file, after what was there: the INFO
    records of the development server's start, then for each request, in
    the order of arrival and stamped with its time, the ERROR records of the
    request followed by the server's INFO record for it.  So the ERROR
    records of a run are those of its requests: one for each request that
    entered the try block and two for each that failed before it. *)
Theorem log_after_a_run
    (cors : CorsPolicy) (arrivals : list (Z * Request)) (w : World) :
  app_errors_log (snd (main cors arrivals w)) =
  (app_errors_log w
   ++ map (fun m => mkLogRecord INFO m None (clock w)) (startup_messages server)
   ++ flat_map
        (fun a =>
           records_of_request (body (snd a)) (set_clock (fst a) fresh_world)
           ++ [mkLogRecord INFO
                 (access_message server (snd a) (fst (wsgi_app cors (snd a) fresh_world)))
                 None (fst a)])
        arrivals)%list /\
  List.length
    (filter is_error_record
       (skipn (List.length (app_errors_log w)) (app_errors_log (snd (main cors arrivals w)))))
  = (List.length (filter (fun a => reaches_try (body (snd a))) arrivals)
     + 2 * List.length (filter (fun a => negb (reaches_try (body (snd a)))) arrivals))%nat.
Proof.
  unfold main. rewrite serve_log, startup_log. cbn [print refused snd app_errors_log clock].
  rewrite <- app_assoc.
  split; [ reflexivity | ].
  rewrite skipn_own_length, filter_app.
  replace (filter is_error_record
             (map (fun m => mkLogRecord INFO m None (clock w)) (startup_messages server)))
    with (@nil LogRecord)
    by (induction (startup_messages server) as [ | m l IH]; [ reflexivity | exact IH ]).
  cbn [app].
  induction arrivals as [ | a rest IH].
  - reflexivity.
  - cbn [flat_map filter]. rewrite filter_app, length_app, IH, error_records_of.
    unfold records_of_request.
    destruct (reaches_try (body (snd a))); cbn [negb List.length unhandled_records]; lia.
Qed.

End Environment.

(** * Concrete runs *)

(** Documents on either side of the test of line 36, on a UTF-8 console. *)
Example documents_that_raise :
  forallb (fun v => negb (reaches_try utf8_console (Json v)))
          [PyBool true; PyInt 3; PyInt (-1); PyFloat (S754_finite false 3 (-1));
           PyFloat S754_nan; PyStr "x"; PyList [PyNone];
           PyDict [("simulatedInput", PyStr lone_surrogate)]] = true.
Proof. reflexivity. Qed.

Example documents_that_enter_the_try_block :
  forallb (fun v => reaches_try utf8_console (Json v))
          [PyNone; PyBool false; PyInt 0; PyFloat (S754_zero true); PyStr EmptyString;
           PyList []; PyDict []; PyDict [("simulatedInput", PyList [PyInt 1])];
           PyDict [("simulatedInput", PyList [PyStr lone_surrogate])]] = true.
Proof. reflexivity. Qed.

Lemma truthy_non_object_goes_global_witness :
  body (request_of (Json (PyStr "x"))) = Json (PyStr "x") /\
  truthy (PyStr "x") = true /\ is_dict (PyStr "x") = false /\
  fst (trigger_error utf8_console (request_of (Json (PyStr "x"))) fresh_world) =
    Raise (mkExn AttributeError "'str' object has no attribute 'get'"
                 [mkFrame server_py 36 "trigger_error"]) /\
  data (fst (wsgi_app utf8_console cors_any_origin (request_of (Json (PyStr "x")))
                      fresh_world))
    = dumps [("message", global_message)] ++ newline.
Proof.
  do 3 (split; [ reflexivity | ]).
  destruct (truthy_non_object_goes_global utf8_console cors_any_origin
              (request_of (Json (PyStr "x"))) (PyStr "x") fresh_world
              eq_refl eq_refl eq_refl) as (H1 & _ & _ & _ & H5 & _).
  split; [ exact H1 | exact H5 ].
Defined.

(** C1 fails on the code.  The JSON array [1] is answered with status 500
    but with the body of the fallback handler, although its siblings, the
    empty array and null, which the guard of line 36 catches, get the body of
    the except block. *)
Lemma trigger_body_not_always_local :
  data (fst (wsgi_app utf8_console cors_off (request_of (Json (PyList []))) fresh_world))
    = dumps [("message", local_message)] ++ newline /\
  data (fst (wsgi_app utf8_console cors_off (request_of (Json PyNone)) fresh_world))
    = dumps [("message", local_message)] ++ newline /\
  status_code (fst (wsgi_app utf8_console cors_off (request_of (Json (PyList [PyInt 1])))
                             fresh_world)) = 500%Z /\
  data (fst (wsgi_app utf8_console cors_off (request_of (Json (PyList [PyInt 1])))
                      fresh_world))
    = dumps [("message", global_message)] ++ newline /\
  data (fst (wsgi_app utf8_console cors_off (request_of (Json (PyList [PyInt 1])))
                      fresh_world))
    <> dumps [("message", local_message)] ++ newline.
Proof.
  do 4 (split; [ reflexivity | ]).
  intro H. vm_compute in H. discriminate H.
Qed.

(** C5 fails on the code.  The three named requests get the same status and
    body, but the response does depend on what the body holds: the array
    [1] gets another body than they do. *)
Lemma answer_depends_on_the_body :
  visible (fst (wsgi_app utf8_console cors_off (request_of (NotJson EmptyString)) fresh_world))
  = visible (fst (wsgi_app utf8_console cors_off (request_of (Json (PyDict []))) fresh_world)) /\
  visible (fst (wsgi_app utf8_console cors_off (request_of (Json (PyDict []))) fresh_world))
  = visible (fst (wsgi_app utf8_console cors_off
                    (request_of (Json (PyDict [("simulatedInput", PyStr "x")])))
                    fresh_world)) /\
  visible (fst (wsgi_app utf8_console cors_off (request_of (Json (PyList [PyInt 1])))
                         fresh_world))
  <> visible (fst (wsgi_app utf8_console cors_off (request_of (NotJson EmptyString))
                            fresh_world)).
Proof.
  do 2 (split; [ reflexivity | ]).
  intro H. vm_compute in H. discriminate H.
Qed.

(** C8 fails on the code.  A hundred thousand opening brackets are not valid
    JSON, but the decoder runs out of depth before it finds that out: line
    35 raises RecursionError, which the silent flag does not cover, and the
    request is answered by the fallback handler: still with status 500 and
    not 400, but not like a request with no body. *)
Lemma deep_invalid_body_goes_global :
  fst (get_json 35 "trigger_error" true
         (request_of (TooDeep (brackets 100000)
                              " while decoding a JSON array from a unicode string"))
         fresh_world)
  = Raise (mkExn RecursionError
             "maximum recursion depth exceeded while decoding a JSON array from a unicode string"
             [mkFrame server_py 35 "trigger_error"]) /\
  visible (fst (wsgi_app utf8_console cors_off
                  (request_of (TooDeep (brackets 100000)
                                       " while decoding a JSON array from a unicode string"))
                  fresh_world))
  = (500%Z, global_body) /\
  visible (fst (wsgi_app utf8_console cors_off (request_of (NotJson EmptyString)) fresh_world))
  = (500%Z, local_body) /\
  global_body <> local_body.
Proof.
  do 3 (split; [ reflexivity | ]).
  intro H. vm_compute in H. discriminate H.
Qed.

(** C10 fails on the code.  The value read does affect the response: with
    the lone surrogate U+D800 as simulatedInput, line 37 raises
    UnicodeEncodeError outside the try block and the fallback handler
    answers, while the value x gets the answer of the except block. *)
Lemma unprintable_input_changes_the_answer :
  fst (read_simulated_input
         (request_of (Json (PyDict [("simulatedInput", PyStr lone_surrogate)])))
         fresh_world)
  = Return (PyStr lone_surrogate) /\
  fst (trigger_error utf8_console
         (request_of (Json (PyDict [("simulatedInput", PyStr lone_surrogate)])))
         fresh_world)
  = Raise (mkExn UnicodeEncodeError
             ("'utf-8' codec can't encode character '" ++ backslash
                ++ "ud800' in position 29: surrogates not allowed")
             [mkFrame server_py 37 "trigger_error"]) /\
  visible (fst (wsgi_app utf8_console cors_off
                  (request_of (Json (PyDict [("simulatedInput", PyStr lone_surrogate)])))
                  fresh_world))
  = (500%Z, global_body) /\
  visible (fst (wsgi_app utf8_console cors_off
                  (request_of (Json (PyDict [("simulatedInput", PyStr "x")])))
                  fresh_world))
  = (500%Z, local_body).
Proof. repeat split. Qed.

(** C6 does not hold for every failed request.  With the JSON array [1] as
    body, line 36 raises outside the try block; the framework logs the
    exception that left the view before it calls the handler registered for
    500, and line 63 logs again: the log file receives two records. *)
Lemma unhandled_failure_logged_twice :
  List.length (app_errors_log
                 (snd (wsgi_app utf8_console cors_off (request_of (Json (PyList [PyInt 1])))
                                fresh_world)))
  = 2%nat /\
  map message (app_errors_log
                 (snd (wsgi_app utf8_console cors_off (request_of (Json (PyList [PyInt 1])))
                                fresh_world)))
  = ["Exception on /api/error/trigger [POST]";
     "An unhandled internal server error occurred: " ++ exc_str internal_server_error].
Proof. split; reflexivity. Qed.

Lemma stderr_trace_of_an_unhandled_failure_witness :
  truthy (PyList [PyInt 1]) = true /\ is_dict (PyList [PyInt 1]) = false /\
  List.length (stderr (snd (wsgi_app utf8_console cors_off
                                     (request_of (Json (PyList [PyInt 1])))
                                     fresh_world))) = 3%nat.
Proof.
  do 2 (split; [ reflexivity | ]).
  destruct (stderr_trace_of_an_unhandled_failure utf8_console cors_off
              (request_of (Json (PyList [PyInt 1]))) (PyList [PyInt 1]) fresh_world
              eq_refl eq_refl eq_refl) as (Htrace & _).
  change (stderr (snd (wsgi_app utf8_console cors_off
                                (request_of (Json (PyList [PyInt 1]))) fresh_world)))
    with (skipn (List.length (stderr fresh_world))
                (stderr (snd (wsgi_app utf8_console cors_off
                                       (request_of (Json (PyList [PyInt 1])))
                                       fresh_world)))).
  rewrite Htrace. reflexivity.
Defined.

Lemma stderr_mirrors_the_error_records_witness :
  stderr_records (stderr fresh_world) = filter is_error_record (app_errors_log fresh_world) /\
  stderr_records
    (stderr (snd (main utf8_console silent_server cors_any_origin
                       [(5%Z, request_of (Json (PyBool true)));
                        (9%Z, request_of (NotJson EmptyString))] fresh_world)))
  = filter is_error_record
      (app_errors_log
         (snd (main utf8_console silent_server cors_any_origin
                    [(5%Z, request_of (Json (PyBool true)));
                     (9%Z, request_of (NotJson EmptyString))] fresh_world))).
Proof.
  split; [ reflexivity | ].
  apply (stderr_mirrors_the_error_records utf8_console silent_server cors_any_origin
           [(5%Z, request_of (Json (PyBool true)));
            (9%Z, request_of (NotJson EmptyString))] fresh_world).
  reflexivity.
Defined.

Lemma view_leaves_cross_origin_to_the_extension_witness :
  headers (fst (wsgi_app utf8_console cors_off (request_of (NotJson EmptyString)) fresh_world))
  = [("Content-Type", "application/json"); ("Content-Length", "73")] /\
  existsb (fun h => String.eqb (fst h) "Access-Control-Allow-Origin")
          (headers (fst (wsgi_app utf8_console cors_off (request_of (Json (PyInt 5)))
                                  fresh_world)))
  = true.
Proof.
  destruct (view_leaves_cross_origin_to_the_extension utf8_console cors_off
              (request_of (NotJson EmptyString)) (request_of (Json (PyInt 5)))
              fresh_world fresh_world eq_refl eq_refl) as (Hh & _ & Hg).
  split; [ exact Hh | exact Hg ].
Defined.

Lemma present_key_is_read_as_it_is_witness :
  dict_lookup "simulatedInput" [("simulatedInput", PyNone)] = Some PyNone /\
  read_simulated_input (request_of (Json (PyDict [("simulatedInput", PyNone)]))) fresh_world
  = (Return PyNone, fresh_world) /\
  PyNone <> PyStr "null".
Proof.
  split; [ reflexivity | ].
  destruct (present_key_is_read_as_it_is utf8_console cors_off
              (request_of (Json (PyDict [("simulatedInput", PyNone)])))
              [("simulatedInput", PyNone)] PyNone fresh_world eq_refl eq_refl)
    as (Hread & _).
  split; [ exact Hread | discriminate ].
Defined.

Lemma absent_input_defaults_to_null_witness :
  no_simulated_input (body (request_of (Malformed "{simulatedInput: "))) = true /\
  read_simulated_input (request_of (Malformed "{simulatedInput: ")) fresh_world
  = (Return (PyStr "null"), fresh_world) /\
  visible (fst (wsgi_app utf8_console cors_any_origin
                  (request_of (Malformed "{simulatedInput: ")) fresh_world))
  = (500%Z, local_body).
Proof.
  split; [ reflexivity | ].
  destruct (absent_input_defaults_to_null utf8_console cors_any_origin
              (request_of (Malformed "{simulatedInput: ")) fresh_world eq_refl)
    as (Hread & _ & Hvis).
  split; [ exact Hread | exact Hvis ].
Defined.

Lemma named_requests_get_the_same_answer_witness :
  visible (fst (wsgi_app utf8_console cors_any_origin
                  (request_of (Json (PyDict [("simulatedInput", PyStr "x")]))) fresh_world))
  = visible (fst (wsgi_app utf8_console cors_any_origin
                    (request_of (NotJson EmptyString)) fresh_world)).
Proof.
  destruct (named_requests_get_the_same_answer utf8_console cors_any_origin
              (request_of (NotJson EmptyString))
              (request_of (Json (PyDict [])))
              (request_of (Json (PyDict [("simulatedInput", PyStr "x")])))
              fresh_world fresh_world fresh_world eq_refl eq_refl eq_refl)
    as (_ & _ & H3).
  exact H3.
Defined.
